(** * AI Financial Advisor backend ([backend/main.py])

    A shallow embedding of the request handlers of the FastAPI backend and
    of [get_ai_response], the function that asks the Groq completion API
    for an answer and falls back to keyword-selected canned advice.

    Conventions.
    - A Python [str] is a [string]; each [ascii] stands for the code point
      with the same number, so the model covers the strings whose code
      points are below 256.  [lower], [strip] and [in] follow CPython on
      that range.
    - The value produced by [response.json()] is a [json] tree whose
      objects are finite maps, as Python's [dict]s are.
    - Effects ([os.getenv], [print], [requests.post]) and Python
      exceptions live in the small free monad [prog]; [run] interprets a
      program against a [World] and records the effects in a trace.
    - [print] writes to the standard output and raises when the stream
      refuses the text.  [run] is the interpretation under a standard
      output that accepts every line; [run_out] takes the behaviour of the
      standard output as a parameter and agrees with [run] when no line
      is refused. *)

From Stdlib Require Import ZArith NArith Ascii String Bool List.
From stdpp Require Import base option gmap strings.

Local Open Scope string_scope.
Local Open Scope Z_scope.

(** ** Python strings *)

Module PyStr.

(** [c.lower()] for one code point below 256: the ASCII capitals and the
    Latin-1 capitals U+00C0..U+00DE, except the multiplication sign U+00D7,
    move up by 32; every other code point is its own lower case. *)
Definition lower_char (c : ascii) : ascii :=
  let n := N_of_ascii c in
  if ((65 <=? n) && (n <=? 90))%N
     || ((192 <=? n) && (n <=? 222) && negb (n =? 215))%N
  then ascii_of_N (n + 32)
  else c.

(** [s.lower()] *)
Fixpoint lower (s : string) : string :=
  match s with
  | EmptyString => EmptyString
  | String c s' => String (lower_char c) (lower s')
  end.

(** [c.isspace()] for a code point below 256: TAB, LF, VT, FF, CR, the
    separators U+001C..U+001F, the space, NEL (U+0085) and the no-break
    space (U+00A0). *)
Definition is_space (c : ascii) : bool :=
  let n := N_of_ascii c in
  (((9 <=? n) && (n <=? 13)) || ((28 <=? n) && (n <=? 32))
   || (n =? 133) || (n =? 160))%N.

(** [s.lstrip()] *)
Fixpoint lstrip (s : string) : string :=
  match s with
  | EmptyString => EmptyString
  | String c s' => if is_space c then lstrip s' else s
  end.

(** [s.rstrip()] *)
Fixpoint rstrip (s : string) : string :=
  match s with
  | EmptyString => EmptyString
  | String c s' =>
      match rstrip s' with
      | EmptyString => if is_space c then EmptyString else String c EmptyString
      | r => String c r
      end
  end.

(** [s.strip()] *)
Definition strip (s : string) : string := rstrip (lstrip s).

(** [needle in hay] *)
Fixpoint contains (needle hay : string) : bool :=
  if String.prefix needle hay then true
  else match hay with
       | EmptyString => false
       | String _ hay' => contains needle hay'
       end.

(** [s[:n]] for [n >= 0] *)
Fixpoint take (n : nat) (s : string) : string :=
  match n, s with
  | S n', String c s' => String c (take n' s')
  | _, _ => EmptyString
  end.

(** Truth value of a string: only the empty string is false. *)
Definition truthy (s : string) : bool :=
  match s with EmptyString => false | _ => true end.

End PyStr.

(** ** JSON values, as [response.json()] builds them *)

#[warnings="-register-all"] Inductive json : Type :=
| JNull
| JBool (b : bool)
| JInt (n : Z)
| JFloat (literal : string)
| JStr (s : string)
| JList (items : list json)
| JDict (fields : gmap string json).

(** ** Exceptions, requests and responses *)

(** The exceptions that can reach the [except Exception] clause.  The
    first four are raised by the interpreter while the payload is taken
    apart, [JSONDecodeError] by [response.json()], the others by
    [requests.post]; all of them derive from [Exception]. *)
Inductive exn : Type :=
| KeyError
| IndexError
| TypeError
| AttributeError
| JSONDecodeError
| ConnectionError
| Timeout
| OtherException (name : string).

(** The arguments of [requests.post]. *)
Record Request : Type := mkRequest {
  url : string;
  headers : gmap string string;
  json_payload : json;
  timeout : Z
}.

(** What the handler reads from a [requests.Response]: [json_value] is
    the result of [response.json()], [None] when the body is not JSON. *)
Record Response : Type := mkResponse {
  status_code : Z;
  text : string;
  json_value : option json
}.

(** The lines the handler prints; each constructor keeps the value that is
    interpolated into the line. *)
Inductive log_line : Type :=
| KeyLoaded (first10 : string)   (* "API Key loaded: {api_key[:10]}..." *)
| NoKeyFound                     (* "No API key found" *)
| ResponseStatus (code : Z)      (* "API Response Status: {status_code}" *)
| ApiError (body : string)       (* "API Error: {response.text}" *)
| ExceptionLine (e : exn).       (* "Exception: {e}" *)

(** ** Programs with effects *)

Inductive prog (A : Type) : Type :=
| Ret (a : A)
| Raise (e : exn)
| Getenv (name : string) (k : option string -> prog A)
| Print (line : log_line) (k : option exn -> prog A)
| Post (r : Request) (k : exn + Response -> prog A).

Arguments Ret {A} a.
Arguments Raise {A} e.
Arguments Getenv {A} name k.
Arguments Print {A} line k.
Arguments Post {A} r k.

Fixpoint bind {A B : Type} (p : prog A) (f : A -> prog B) : prog B :=
  match p with
  | Ret a => f a
  | Raise e => Raise e
  | Getenv name k => Getenv name (fun v => bind (k v) f)
  | Print line k => Print line (fun o => bind (k o) f)
  | Post r k => Post r (fun o => bind (k o) f)
  end.

#[global] Instance prog_ret : MRet prog := @Ret.
#[global] Instance prog_bind : MBind prog := fun A B f p => bind p f.

(** [try: body / except Exception as e: handler e] *)
Fixpoint try_except {A : Type} (body : prog A) (handler : exn -> prog A)
  : prog A :=
  match body with
  | Ret a => Ret a
  | Raise e => handler e
  | Getenv name k => Getenv name (fun v => try_except (k v) handler)
  | Print line k => Print line (fun o => try_except (k o) handler)
  | Post r k => Post r (fun o => try_except (k o) handler)
  end.

Definition getenv (name : string) : prog (option string) :=
  Getenv name Ret.

(** [print(...)]: returns [None], or raises what the stream raises. *)
Definition print (line : log_line) : prog unit :=
  Print line (fun o => match o with Some e => Raise e | None => Ret tt end).

(** [requests.post(...)]: returns the response or raises. *)
Definition post (r : Request) : prog Response :=
  Post r (fun o => match o with inl e => Raise e | inr resp => Ret resp end).

(** The process environment and the remote service. *)
Record World : Type := mkWorld {
  environ : gmap string string;
  remote : Request -> exn + Response
}.

Inductive event : Type :=
| EGetenv (name : string) (value : option string)
| EPrint (line : log_line)
| EPost (r : Request) (outcome : exn + Response).

(** Running a program on a standard output that accepts every line: the
    effects in order, then the value returned or the exception that
    escaped. *)
Fixpoint run {A : Type} (w : World) (p : prog A) : list event * (exn + A) :=
  match p with
  | Ret a => ([], inr a)
  | Raise e => ([], inl e)
  | Getenv name k =>
      let v := environ w !! name in
      let '(t, res) := run w (k v) in (EGetenv name v :: t, res)
  | Print line k =>
      let '(t, res) := run w (k None) in (EPrint line :: t, res)
  | Post r k =>
      let o := remote w r in
      let '(t, res) := run w (k o) in (EPost r o :: t, res)
  end.

(** The requests sent during a run. *)
Fixpoint posts (t : list event) : list Request :=
  match t with
  | [] => []
  | EPost r _ :: t' => r :: posts t'
  | _ :: t' => posts t'
  end.

(** The standard output: given the lines written so far and the line to
    write, [None] when the line is written and [Some e] when [print]
    raises [e] (an encoding error, a closed stream). *)
Definition Console : Type := list log_line -> log_line -> option exn.

(** The standard output that accepts every line. *)
Definition quiet : Console := fun _ _ => None.

(** Running a program on a given standard output.  A line that is refused
    leaves no event, and the exception is handed to the program at the
    point of the [print]. *)
Fixpoint run_out {A : Type} (w : World) (out : Console)
    (printed : list log_line) (p : prog A) : list event * (exn + A) :=
  match p with
  | Ret a => ([], inr a)
  | Raise e => ([], inl e)
  | Getenv name k =>
      let v := environ w !! name in
      let '(t, res) := run_out w out printed (k v) in
      (EGetenv name v :: t, res)
  | Print line k =>
      match out printed line with
      | None =>
          let '(t, res) := run_out w out (printed ++ [line])%list (k None) in
          (EPrint line :: t, res)
      | Some e => run_out w out printed (k (Some e))
      end
  | Post r k =>
      let o := remote w r in
      let '(t, res) := run_out w out printed (k o) in (EPost r o :: t, res)
  end.

(** The lines written during a run. *)
Fixpoint lines (t : list event) : list log_line :=
  match t with
  | [] => []
  | EPrint line :: t' => line :: lines t'
  | _ :: t' => lines t'
  end.

(** ** Taking the payload apart *)

(** [v[key]] for a string key. *)
Definition getitem_key (v : json) (key : string) : prog json :=
  match v with
  | JDict d => match d !! key with
               | Some x => Ret x
               | None => Raise KeyError
               end
  | _ => Raise TypeError
  end.

(** [v[i]] for an index [i >= 0].  The keys of a JSON object are strings,
    so an integer is never one of them. *)
Definition getitem_index (v : json) (i : nat) : prog json :=
  match v with
  | JList l => match l !! i with
               | Some x => Ret x
               | None => Raise IndexError
               end
  | JStr s => match String.get i s with
              | Some c => Ret (JStr (String c EmptyString))
              | None => Raise IndexError
              end
  | JDict _ => Raise KeyError
  | _ => Raise TypeError
  end.

(** [v.strip()]: only strings have the method. *)
Definition call_strip (v : json) : prog string :=
  match v with
  | JStr s => Ret (PyStr.strip s)
  | _ => Raise AttributeError
  end.

(** [response.json()] *)
Definition response_json (r : Response) : prog json :=
  match json_value r with
  | Some d => Ret d
  | None => Raise JSONDecodeError
  end.

(** ** The handlers of [backend/main.py] *)

(** How an f-string renders the value of [os.getenv]. *)
Definition format_key (api_key : option string) : string :=
  match api_key with
  | Some k => k
  | None => "None"
  end.

Definition GROQ_URL : string :=
  "https://api.groq.com/openai/v1/chat/completions".

Definition SYSTEM_PROMPT : string :=
  "You are a financial advisor. Give brief, practical advice.".

Definition BUDGET_TIP : string :=
  "Track your income and expenses. Use the 50/30/20 rule: 50% needs, 30% wants, 20% savings.".

Definition INVEST_TIP : string :=
  "Start with low-cost index funds. Invest regularly and don't try to time the market.".

Definition DEBT_TIP : string :=
  "Pay minimum on all debts, then focus extra payments on the highest interest rate debt first.".

Definition GENERIC_PROMPT : string :=
  "I can help with budgeting, investing, and debt management. What specific area interests you?".

(** The line printed about the key: its first ten characters when
    [api_key] is true, a notice when it is [None] or empty. *)
Definition key_line (api_key : option string) : log_line :=
  match api_key with
  | Some k => if PyStr.truthy k then KeyLoaded (PyStr.take 10 k)
              else NoKeyFound
  | None => NoKeyFound
  end.

(** The arguments of the one [requests.post] call of [get_ai_response]. *)
Definition chat_request (api_key : option string) (message : string)
  : Request :=
  {| url := GROQ_URL;
     headers :=
       {[ "Authorization" := "Bearer " +:+ format_key api_key;
          "Content-Type" := "application/json" ]};
     json_payload :=
       JDict
         {[ "model" := JStr "llama3-8b-8192";
            "messages" :=
              JList
                [ JDict {[ "role" := JStr "system";
                           "content" := JStr SYSTEM_PROMPT ]};
                  JDict {[ "role" := JStr "user";
                           "content" := JStr message ]} ];
            "max_tokens" := JInt 300 ]};
     timeout := 10 |}.

(** [get_ai_response].  The [try] block yields [Some s] when it executes
    [return s] and [None] when control leaves it without returning; the
    [except] clause prints and lets control fall through as well. *)
Definition get_ai_response (message : string) : prog string :=
  api_key ← getenv "GROQ_API_KEY";
  print (key_line api_key);;
  returned ←
    try_except
      (response ← post (chat_request api_key message);
       print (ResponseStatus (status_code response));;
       if status_code response =? 200 then
         data ← response_json response;
         choices ← getitem_key data "choices";
         choice ← getitem_index choices 0;
         msg ← getitem_key choice "message";
         content ← getitem_key msg "content";
         stripped ← call_strip content;
         Ret (Some stripped)
       else
         print (ApiError (text response));;
         Ret None)
      (fun e => print (ExceptionLine e);; Ret None);
  match returned with
  | Some s => Ret s
  | None =>
      if PyStr.contains "budget" (PyStr.lower message) then Ret BUDGET_TIP
      else if PyStr.contains "invest" (PyStr.lower message) then Ret INVEST_TIP
      else if PyStr.contains "debt" (PyStr.lower message) then Ret DEBT_TIP
      else Ret GENERIC_PROMPT
  end.

(** The pydantic models. *)
Record ChatMessage : Type := mkChatMessage { message : string }.
Record ChatResponse : Type := mkChatResponse { response : string }.

(** [health_check] *)
Definition health_check : prog json :=
  Ret (JDict {[ "status" := JStr "healthy" ]}).

(** [chat_endpoint] *)
Definition chat_endpoint (m : ChatMessage) : prog ChatResponse :=
  r ← get_ai_response (message m);
  Ret (mkChatResponse r).

(** ** The HTTP surface *)

Record HttpRequest : Type := mkHttpRequest {
  req_headers : list (string * string);
  req_query : string;
  req_body : string
}.

Record HttpResponse : Type := mkHttpResponse {
  http_status : Z;
  http_body : json
}.

Definition ChatResponse_to_json (r : ChatResponse) : json :=
  JDict {[ "response" := JStr (response r) ]}.

(** What FastAPI does with a path operation function: the value returned
    is serialised into the body of a 200 response; an exception that
    escapes the function becomes a 500 response. *)
Definition serve {A : Type} (to_json : A -> json) (w : World) (h : prog A)
  : HttpResponse :=
  match snd (run w h) with
  | inr a => mkHttpResponse 200 (to_json a)
  | inl _ => mkHttpResponse 500 (JStr "Internal Server Error")
  end.

(** [GET /api/health]: the route function takes no parameter, so nothing
    of the request reaches it. *)
Definition get_api_health (w : World) (req : HttpRequest) : HttpResponse :=
  serve id w health_check.

(** [POST /api/chat] with a body that validates as a [ChatMessage]. *)
Definition post_api_chat (w : World) (m : ChatMessage) : HttpResponse :=
  serve ChatResponse_to_json w (chat_endpoint m).

(** The answer of one call of [get_ai_response], and its trace. *)
Definition respond (w : World) (msg : string) : exn + string :=
  snd (run w (get_ai_response msg)).

Definition respond_trace (w : World) (msg : string) : list event :=
  fst (run w (get_ai_response msg)).

(** ** Vocabulary of the specification *)

Module Spec.

(** [k] occurs in [s] as a contiguous run of characters. *)
Definition substring_of (k s : string) : Prop :=
  ∃ pre post, s = pre +:+ k +:+ post.

(** Some stretch of [msg] spells the lower-case keyword [k] once case is
    ignored. *)
Definition contains_ci (k msg : string) : Prop :=
  ∃ pre mid post, msg = pre +:+ mid +:+ post ∧ PyStr.lower mid = k.





(** The payload of a successful completion,
    [{choices: [{message: {content: c}}, ...], ...}]. *)
Definition well_formed_payload (d : json) (c : string) : Prop :=
  ∃ (top : gmap string json) (rest : list json)
    (choice msg : gmap string json),
    d = JDict top
    ∧ top !! "choices" = Some (JList (JDict choice :: rest))
    ∧ choice !! "message" = Some (JDict msg)
    ∧ msg !! "content" = Some (JStr c).

(** The remote call succeeded and its first choice carries the text [c]. *)
Inductive remote_succeeded : exn + Response → string → Prop :=
| succeeded (resp : Response) (d : json) (c : string) :
    status_code resp = 200 →
    json_value resp = Some d →
    well_formed_payload d c →
    remote_succeeded (inr resp) c.

(** The ways the remote call fails: the transport raises (network error,
    timeout), the status is not 200, the body is not JSON, or the JSON
    does not have the shape of a completion. *)
Inductive remote_failed : exn + Response → Prop :=
| failed_transport (e : exn) :
    remote_failed (inl e)
| failed_status (resp : Response) :
    status_code resp ≠ 200 →
    remote_failed (inr resp)
| failed_not_json (resp : Response) :
    status_code resp = 200 →
    json_value resp = None →
    remote_failed (inr resp)
| failed_malformed (resp : Response) (d : json) :
    status_code resp = 200 →
    json_value resp = Some d →
    (∀ c, ¬ well_formed_payload d c) →
    remote_failed (inr resp).

End Spec.

Import Spec.

Create HintDb outcome.
#[export] Hint Constructors remote_failed remote_succeeded : outcome.

(** The credential as the process sees it. *)
Definition credential (w : World) : option string :=
  environ w !! "GROQ_API_KEY".

(** What the remote service answers to the request built for [msg]. *)
Definition remote_outcome (w : World) (msg : string) : exn + Response :=
  remote w (chat_request (credential w) msg).

(** The text picked by the [if]/[elif] chain that ends
    [get_ai_response]. *)
Definition fallback_text (msg : string) : string :=
  if PyStr.contains "budget" (PyStr.lower msg) then BUDGET_TIP
  else if PyStr.contains "invest" (PyStr.lower msg) then INVEST_TIP
  else if PyStr.contains "debt" (PyStr.lower msg) then DEBT_TIP
  else GENERIC_PROMPT.

(** The part of the [try] block that takes the payload apart, from
    [data["choices"]] to [return ... .strip()]. *)
Abbreviation first_choice_text d :=
  (getitem_key d "choices" ≫= λ choices : json,
   getitem_index choices 0 ≫= λ choice : json,
   getitem_key choice "message" ≫= λ msg : json,
   getitem_key msg "content" ≫= λ content : json,
   call_strip content ≫= λ stripped : string,
   Ret (Some stripped)).

(** Refutes [well_formed_payload d c] when [d] has another shape. *)
Ltac not_well_formed :=
  let H := fresh in
  intros ? (? & ? & ? & ? & H & ? & ? & ?); simplify_eq.

(** ** Sample worlds *)

Definition completion_payload (c : string) : json :=
  JDict
    {[ "choices" :=
         JList [ JDict {[ "message" :=
                            JDict {[ "role" := JStr "assistant";
                                     "content" := JStr c ]} ]} ] ]}.

(** A completion answered with status 200; the raw body is not read on
    that path and is left empty. *)
Definition ok_response (c : string) : Response :=
  {| status_code := 200; text := ""; json_value := Some (completion_payload c) |}.

Definition configured : gmap string string :=
  {[ "GROQ_API_KEY" := "gsk_0123456789abcdef" ]}.



Definition w_timeout : World :=
  {| environ := configured; remote := λ _, inl Timeout |}.




(** Status 200 with an empty list of choices. *)
Definition w_no_choice : World :=
  {| environ := configured;
     remote := λ _, inr {| status_code := 200; text := "";
                           json_value :=
                             Some (JDict {[ "choices" := JList [] ]}) |} |}.

(** Status 200 with a first choice whose content is [null]. *)
Definition w_null_content : World :=
  {| environ := configured;
     remote := λ _, inr {| status_code := 200; text := "";
                           json_value :=
                             Some (JDict
                                     {[ "choices" :=
                                          JList [ JDict {[ "message" :=
                                                             JDict {[ "content" := JNull ]} ]} ] ]}) |} |}.

(** Status 200 with a body that is not JSON. *)
Definition w_html : World :=
  {| environ := configured;
     remote := λ _, inr {| status_code := 200;
                           text := "<html>Bad gateway</html>";
                           json_value := None |} |}.



(** The events every run of [get_ai_response] starts with: the lookup of
    the key, the line about it, and the request with its outcome. *)
Definition run_prefix (w : World) (msg : string) : list event :=
  [ EGetenv "GROQ_API_KEY" (credential w);
    EPrint (key_line (credential w));
    EPost (chat_request (credential w) msg) (remote_outcome w msg) ].




(** The credential is the empty string. *)
Definition w_empty_key : World :=
  {| environ := {[ "GROQ_API_KEY" := "" ]}; remote := λ _, inl Timeout |}.

(** [serve] on a given standard output. *)
Definition serve_on {A : Type} (to_json : A -> json) (w : World)
    (out : Console) (h : prog A) : HttpResponse :=
  match snd (run_out w out [] h) with
  | inr a => mkHttpResponse 200 (to_json a)
  | inl _ => mkHttpResponse 500 (JStr "Internal Server Error")
  end.

(** [POST /api/chat] on a given standard output. *)
Definition post_api_chat_on (w : World) (out : Console) (m : ChatMessage)
  : HttpResponse :=
  serve_on ChatResponse_to_json w out (chat_endpoint m).

(** A program that never calls [requests.post]. *)
Fixpoint post_free {A : Type} (p : prog A) : Prop :=
  match p with
  | Ret _ | Raise _ => True
  | Getenv _ k => ∀ v, post_free (k v)
  | Print _ k => ∀ o, post_free (k o)
  | Post _ _ => False
  end.

Definition is_ascii (s : string) : bool :=
  forallb (λ c, (N_of_ascii c <? 128)%N) (list_ascii_of_string s).

(** A standard output that encodes as ASCII: a key prefix or a response
    body with a character above 127 makes [print] raise. *)
Definition ascii_stdout : Console :=
  λ _ line,
    match line with
    | KeyLoaded text | ApiError text =>
        if is_ascii text then None
        else Some (OtherException "UnicodeEncodeError")
    | _ => None
    end.

(** A standard output that has been closed: every [print] raises. *)
Definition closed_stdout : Console :=
  λ _ _, Some (OtherException "ValueError").

(** A key whose first character is U+00E9. *)
Definition accented_key : string :=
  String (ascii_of_N 233) "_0123456789abcdef".

Definition w_accented_key : World :=
  {| environ := {[ "GROQ_API_KEY" := accented_key ]};
     remote := λ _, inr (ok_response "  Pay yourself first.  ") |}.

(** Status 503 with a body that has a character above 127. *)
Definition w_accented_error : World :=
  {| environ := configured;
     remote := λ _, inr {| status_code := 503;
                           text := String (ascii_of_N 233) "chec";
                           json_value := None |} |}.

(** * Proofs *)

(** ** Strings *)

Lemma app_cons_s (x : ascii) (a b : string) :
  String x a +:+ b = String x (a +:+ b).
Proof. reflexivity. Qed.

Lemma app_nil_s (b : string) : "" +:+ b = b.
Proof. reflexivity. Qed.

Lemma prefix_spec (n h : string) :
  String.prefix n h = true ↔ ∃ post, h = n +:+ post.
Proof.
  revert n. induction h as [|b h IH]; intros [|a n]; simpl.
  - split; [by exists "" | done].
  - split; [done | by intros [post Hp]].
  - split; [by eexists | done].
  - destruct (ascii_dec a b) as [->|Hne].
    + rewrite IH. split; intros [post Hp]; exists post.
      * by rewrite app_cons_s, <- Hp.
      * rewrite app_cons_s in Hp. congruence.
    + split; [done | intros [post Hp]].
      rewrite app_cons_s in Hp. congruence.
Qed.

Lemma contains_unfold (n h : string) :
  PyStr.contains n h =
  if String.prefix n h then true
  else match h with
       | EmptyString => false
       | String _ h' => PyStr.contains n h'
       end.
Proof. by destruct h. Qed.

Lemma contains_spec (k h : string) :
  PyStr.contains k h = true ↔ Spec.substring_of k h.
Proof.
  unfold Spec.substring_of. split.
  - induction h as [|b h IH]; rewrite contains_unfold;
      destruct (String.prefix k _) eqn:Hp; try done.
    + intros _. apply prefix_spec in Hp as [post ->]. by exists "", post.
    + intros _. apply prefix_spec in Hp as [post ->]. by exists "", post.
    + intros (pre & post & ->)%IH. by exists (String b pre), post.
  - intros (pre & post & ->). induction pre as [|c pre IH];
      rewrite ?app_nil_s, ?app_cons_s, contains_unfold.
    + assert (String.prefix k (k +:+ post) = true) as ->; [|done].
      apply prefix_spec. by exists post.
    + rewrite IH. by destruct (String.prefix _ _).
Qed.

Lemma lower_app (a b : string) :
  PyStr.lower (a +:+ b) = PyStr.lower a +:+ PyStr.lower b.
Proof.
  induction a as [|x a IH]; [reflexivity|].
  rewrite app_cons_s. simpl. by rewrite IH.
Qed.

Lemma lower_split (s a b : string) :
  PyStr.lower s = a +:+ b →
  ∃ a' b', s = a' +:+ b' ∧ PyStr.lower a' = a ∧ PyStr.lower b' = b.
Proof.
  revert s. induction a as [|x a IH]; intros s Heq.
  - by exists "", s.
  - rewrite app_cons_s in Heq. destruct s as [|c s]; simpl in Heq; [done|].
    injection Heq as Hc Hs. destruct (IH _ Hs) as (a' & b' & -> & Ha & Hb).
    exists (String c a'), b'. simpl. by rewrite Hc, Ha.
Qed.

Lemma contains_lower_ci (k msg : string) :
  PyStr.contains k (PyStr.lower msg) = true ↔ Spec.contains_ci k msg.
Proof.
  rewrite contains_spec. unfold Spec.substring_of, Spec.contains_ci. split.
  - intros (pre & post & Heq).
    apply lower_split in Heq as (pre' & rest & -> & Hpre & Hrest).
    apply lower_split in Hrest as (mid & post' & -> & Hmid & Hpost).
    by exists pre', mid, post'.
  - intros (pre & mid & post & -> & Hmid).
    exists (PyStr.lower pre), (PyStr.lower post).
    by rewrite !lower_app, Hmid.
Qed.


(** ** Trimming *)














(** ** Selection of the fallback text *)



Lemma fallback_text_budget (msg : string) :
  contains_ci "budget" msg → fallback_text msg = BUDGET_TIP.
Proof. intros H%contains_lower_ci. unfold fallback_text. by rewrite H. Qed.

Lemma fallback_text_invest (msg : string) :
  ¬ contains_ci "budget" msg → contains_ci "invest" msg →
  fallback_text msg = INVEST_TIP.
Proof.
  rewrite <- !contains_lower_ci. intros Hb Hi. unfold fallback_text.
  rewrite Hi. by destruct (PyStr.contains "budget" _).
Qed.

Lemma fallback_text_debt (msg : string) :
  ¬ contains_ci "budget" msg → ¬ contains_ci "invest" msg →
  contains_ci "debt" msg →
  fallback_text msg = DEBT_TIP.
Proof.
  rewrite <- !contains_lower_ci. intros Hb Hi Hd. unfold fallback_text.
  rewrite Hd.
  by destruct (PyStr.contains "budget" _), (PyStr.contains "invest" _).
Qed.

Lemma fallback_text_generic (msg : string) :
  ¬ contains_ci "budget" msg → ¬ contains_ci "invest" msg →
  ¬ contains_ci "debt" msg →
  fallback_text msg = GENERIC_PROMPT.
Proof.
  rewrite <- !contains_lower_ci. intros Hb Hi Hd. unfold fallback_text.
  by destruct (PyStr.contains "budget" _), (PyStr.contains "invest" _),
       (PyStr.contains "debt" _).
Qed.

(** ** Running [get_ai_response] *)

Lemma first_choice_text_cases (d : json) :
  (∃ c, well_formed_payload d c
        ∧ first_choice_text d = Ret (Some (PyStr.strip c)))
  ∨ ((∀ c, ¬ well_formed_payload d c)
     ∧ ∃ e, first_choice_text d = Raise e).
Proof.
  destruct d as [| | | | |items|top];
    try (right; split; [not_well_formed | by eexists]).
  cbn. destruct (top !! "choices") as [[| | | |s|items|top']|] eqn:Hc;
    try (right; split; [not_well_formed | by eexists]).
  { cbn. right. split; [not_well_formed|].
    destruct (String.get 0 s); by eexists. }
  destruct items as [|[| | | | |items'|choice] rest];
    try (right; split; [not_well_formed | by eexists]).
  cbn. destruct (choice !! "message") as [[| | | | |items'|m]|] eqn:Hm;
    try (right; split; [not_well_formed | by eexists]).
  cbn. destruct (m !! "content") as [[| | | |c|items'|m']|] eqn:Hk;
    try (right; split; [not_well_formed | by eexists]).
  left. exists c. split; [|done]. by exists top, rest, choice, m.
Qed.

Lemma well_formed_payload_unique (d : json) (c c' : string) :
  well_formed_payload d c → well_formed_payload d c' → c = c'.
Proof.
  intros (? & ? & ? & ? & ? & ? & ? & ?) (? & ? & ? & ? & ? & ? & ? & ?).
  by simplify_eq.
Qed.

Lemma remote_failed_not_succeeded (o : exn + Response) (c : string) :
  remote_failed o → remote_succeeded o c → False.
Proof.
  intros Hf Hs. destruct Hs as [resp d c Hst Hj Hwf].
  inversion Hf; simplify_eq. naive_solver.
Qed.


Lemma run_bind {A B : Type} (w : World) (p : prog A) (f : A → prog B) :
  run w (p ≫= f)
  = match run w p with
    | (t, inl e) => (t, inl e)
    | (t, inr a) => let '(t', r) := run w (f a) in ((t ++ t')%list, r)
    end.
Proof.
  unfold mbind, prog_bind.
  induction p as [a|e|name k IH|line k IH|r k IH]; cbn.
  - by destruct (run w (f a)).
  - done.
  - rewrite IH. destruct (run w (k _)) as [t [e|a]]; [done|].
    by destruct (run w (f a)).
  - rewrite IH. destruct (run w (k None)) as [t [e|a]]; [done|].
    by destruct (run w (f a)).
  - rewrite IH. destruct (run w (k _)) as [t [e|a]]; [done|].
    by destruct (run w (f a)).
Qed.

Section Run.

Context (w : World) (msg : string).

Lemma run_fallback :
  run w
    (if PyStr.contains "budget" (PyStr.lower msg) then Ret BUDGET_TIP
     else if PyStr.contains "invest" (PyStr.lower msg) then Ret INVEST_TIP
     else if PyStr.contains "debt" (PyStr.lower msg) then Ret DEBT_TIP
     else Ret GENERIC_PROMPT)
  = ([], inr (fallback_text msg)).
Proof. unfold fallback_text. by repeat case_match. Qed.

#[local] Arguments chat_request : simpl never.
#[local] Arguments key_line : simpl never.
#[local] Arguments PyStr.take : simpl never.
#[local] Arguments PyStr.strip : simpl never.

(** One request is sent whatever happens; the answer is the fallback text
    when the call failed and the trimmed completion when it succeeded. *)
Lemma run_cases :
  posts (respond_trace w msg) = [chat_request (credential w) msg]
  ∧ ((remote_failed (remote_outcome w msg)
      ∧ respond w msg = inr (fallback_text msg))
     ∨ (∃ c, remote_succeeded (remote_outcome w msg) c
             ∧ respond w msg = inr (PyStr.strip c))).
Proof.
  unfold respond, respond_trace, remote_outcome, credential, get_ai_response.
  cbn. destruct (remote w _) as [e|resp] eqn:Ho; cbn.
  { rewrite run_fallback. cbn. split; [done|]. left. auto with outcome. }
  destruct (Z.eqb_spec (status_code resp) 200) as [Hs|Hs]; cbn;
    [|rewrite run_fallback; cbn; split; [done|]; left; auto with outcome].
  unfold response_json.
  destruct (json_value resp) as [d|] eqn:Hj; cbn;
    [|rewrite run_fallback; cbn; split; [done|]; left; auto with outcome].
  destruct (first_choice_text_cases d) as [(c & Hwf & ->)|(Hn & e & ->)]; cbn.
  - split; [done|]. right. exists c. eauto with outcome.
  - rewrite run_fallback. cbn. split; [done|]. left. eauto with outcome.
Qed.

(** On success the [try] block returns right after printing the status:
    no error line is printed. *)
Lemma run_succeeded (c : string) :
  remote_succeeded (remote_outcome w msg) c →
  run w (get_ai_response msg)
  = ([ EGetenv "GROQ_API_KEY" (credential w);
       EPrint (key_line (credential w));
       EPost (chat_request (credential w) msg) (remote_outcome w msg);
       EPrint (ResponseStatus 200) ],
     inr (PyStr.strip c)).
Proof.
  intros Hs. inversion Hs as [resp d c' Hst Hj Hwf Ho]; subst c'.
  unfold remote_outcome, credential, get_ai_response in *.
  cbn. rewrite <- Ho. cbn. rewrite Hst. cbn.
  unfold response_json. rewrite Hj. cbn.
  destruct (first_choice_text_cases d) as [(c' & Hwf' & ->)|(Hn & _)].
  - cbn. by rewrite (well_formed_payload_unique d c c' Hwf Hwf').
  - by destruct (Hn c).
Qed.

Lemma respond_failed :
  remote_failed (remote_outcome w msg) →
  respond w msg = inr (fallback_text msg).
Proof.
  intros Hf. destruct run_cases as [_ [[_ ?]|(c & Hs & _)]]; [done|].
  by destruct (remote_failed_not_succeeded _ _ Hf Hs).
Qed.


Lemma respond_total : ∃ s, respond w msg = inr s.
Proof. destruct run_cases as [_ [[_ ?]|(c & _ & ?)]]; eauto. Qed.

End Run.



(** ** Running on a given standard output *)

Lemma posts_app (t1 t2 : list event) :
  posts (t1 ++ t2)%list = (posts t1 ++ posts t2)%list.
Proof.
  induction t1 as [|[name v|line|r o] t1 IH]; simpl; [done..|].
  by rewrite IH.
Qed.

(** On the standard output that accepts every line, [run_out] is [run]. *)
Lemma run_out_quiet {A : Type} (w : World) (printed : list log_line)
    (p : prog A) :
  run_out w quiet printed p = run w p.
Proof.
  revert printed.
  induction p as [a|e|name k IH|line k IH|r k IH]; intros printed; cbn;
    [done|done|..]; by rewrite IH.
Qed.

Lemma post_api_chat_on_quiet (w : World) (m : ChatMessage) :
  post_api_chat_on w quiet m = post_api_chat w m.
Proof.
  unfold post_api_chat_on, post_api_chat, serve_on, serve.
  by rewrite run_out_quiet.
Qed.

Lemma run_out_bind {A B : Type} (w : World) (out : Console)
    (printed : list log_line) (p : prog A) (f : A → prog B) :
  run_out w out printed (p ≫= f)
  = match run_out w out printed p with
    | (t, inl e) => (t, inl e)
    | (t, inr a) =>
        let '(t', r) := run_out w out (printed ++ lines t)%list (f a) in
        ((t ++ t')%list, r)
    end.
Proof.
  unfold mbind, prog_bind. revert printed.
  induction p as [a|e|name k IH|line k IH|r k IH]; intros printed; cbn.
  - rewrite app_nil_r. by destruct (run_out w out printed (f a)).
  - done.
  - rewrite IH. destruct (run_out w out printed (k _)) as [t [e|a]]; [done|].
    by destruct (run_out w out _ (f a)).
  - destruct (out printed line) as [e|]; [by rewrite IH|].
    rewrite IH. destruct (run_out w out _ (k None)) as [t [e|a]]; [done|].
    cbn. rewrite <- app_assoc. cbn.
    by destruct (run_out w out _ (f a)).
  - rewrite IH. destruct (run_out w out printed (k _)) as [t [e|a]]; [done|].
    by destruct (run_out w out _ (f a)).
Qed.


Lemma post_free_bind {A B : Type} (p : prog A) (f : A → prog B) :
  post_free p → (∀ a, post_free (f a)) → post_free (p ≫= f).
Proof.
  unfold mbind, prog_bind. intros Hp Hf.
  induction p as [a|e|name k IH|line k IH|r k IH]; cbn in *; auto.
Qed.

Lemma post_free_try {A : Type} (p : prog A) (h : exn → prog A) :
  post_free p → (∀ e, post_free (h e)) → post_free (try_except p h).
Proof.
  intros Hp Hh.
  induction p as [a|e|name k IH|line k IH|r k IH]; cbn in *; auto.
Qed.

Lemma post_free_posts {A : Type} (w : World) (out : Console)
    (printed : list log_line) (p : prog A) :
  post_free p → posts (fst (run_out w out printed p)) = [].
Proof.
  revert printed.
  induction p as [a|e|name k IH|line k IH|r k IH]; intros printed Hp;
    cbn in *; [done|done|..|done].
  - specialize (IH (environ w !! name) printed (Hp _)).
    by destruct (run_out w out printed (k _)).
  - destruct (out printed line) as [e|]; [by apply IH|].
    specialize (IH None (printed ++ [line])%list (Hp _)).
    by destruct (run_out w out _ (k None)).
Qed.

Lemma post_free_print (line : log_line) : post_free (print line).
Proof. by intros [e|]. Qed.

Lemma post_free_getitem_key (v : json) (key : string) :
  post_free (getitem_key v key).
Proof. destruct v; cbn; try done. by destruct (_ !! _). Qed.

Lemma post_free_getitem_index (v : json) (i : nat) :
  post_free (getitem_index v i).
Proof.
  destruct v; cbn; try done; [by destruct (String.get _ _)|].
  by destruct (_ !! _).
Qed.

Lemma post_free_call_strip (v : json) : post_free (call_strip v).
Proof. by destruct v. Qed.

Lemma post_free_response_json (r : Response) : post_free (response_json r).
Proof. unfold response_json. by destruct (json_value r). Qed.

Section OnStdout.

Context (w : World) (out : Console) (msg : string).

Lemma run_out_getenv (printed : list log_line) (name : string) :
  run_out w out printed (getenv name)
  = ([EGetenv name (environ w !! name)], inr (environ w !! name)).
Proof. reflexivity. Qed.

Lemma run_out_print (printed : list log_line) (line : log_line) :
  run_out w out printed (print line)
  = match out printed line with
    | None => ([EPrint line], inr tt)
    | Some e => ([], inl e)
    end.
Proof. cbn. by destruct (out printed line). Qed.



Lemma get_ai_response_key_line_refused (e : exn) :
  out [] (key_line (credential w)) = Some e →
  run_out w out [] (get_ai_response msg)
  = ([EGetenv "GROQ_API_KEY" (credential w)], inl e).
Proof.
  intros Hkey. unfold get_ai_response.
  rewrite run_out_bind, run_out_getenv. cbn -[run_out mbind print try_except].
  rewrite run_out_bind, run_out_print. fold (credential w).
  by rewrite Hkey.
Qed.

Lemma run_out_try_post {A : Type} (printed : list log_line) (r : Request)
    (F : Response → prog A) (h : exn → prog A) :
  run_out w out printed (try_except (post r ≫= F) h)
  = let '(t, res) :=
      run_out w out printed
        (try_except
           match remote w r with
           | inl e => Raise e
           | inr resp => F resp
           end h) in
    (EPost r (remote w r) :: t, res).
Proof. cbn. by destruct (remote w r). Qed.

Lemma post_free_fallback :
  post_free
    (if PyStr.contains "budget" (PyStr.lower msg) then Ret BUDGET_TIP
     else if PyStr.contains "invest" (PyStr.lower msg) then Ret INVEST_TIP
     else if PyStr.contains "debt" (PyStr.lower msg) then Ret DEBT_TIP
     else Ret GENERIC_PROMPT).
Proof. by repeat case_match. Qed.

Lemma post_free_first_choice_text (d : json) :
  post_free (first_choice_text d).
Proof.
  apply post_free_bind; [apply post_free_getitem_key|intros choices].
  apply post_free_bind; [apply post_free_getitem_index|intros choice].
  apply post_free_bind; [apply post_free_getitem_key|intros m].
  apply post_free_bind; [apply post_free_getitem_key|intros content].
  apply post_free_bind; [apply post_free_call_strip|done].
Qed.

(** Once the line about the key is written, one request is sent, whatever
    the standard output does afterwards. *)
Lemma get_ai_response_posts :
  out [] (key_line (credential w)) = None →
  posts (fst (run_out w out [] (get_ai_response msg)))
  = [chat_request (credential w) msg].
Proof.
  intros Hkey. unfold get_ai_response.
  rewrite run_out_bind, run_out_getenv. cbn -[run_out mbind print try_except].
  rewrite run_out_bind, run_out_print. fold (credential w). rewrite Hkey.
  cbn -[run_out mbind print try_except post].
  rewrite run_out_bind, run_out_try_post.
  match goal with
  | |- context [run_out w out ?pr (try_except ?b ?h)] =>
      assert (post_free (try_except b h)) as Hfree;
      [|pose proof (post_free_posts w out pr _ Hfree) as Hposts;
        destruct (run_out w out pr (try_except b h)) as [t0 [e|r]]]
  end.
  { apply post_free_try; [|intros e; apply post_free_bind;
                                     [apply post_free_print|done]].
    destruct (remote w _) as [e|resp]; [done|].
    apply post_free_bind; [apply post_free_print|intros _].
    destruct (status_code resp =? 200).
    - apply post_free_bind; [apply post_free_response_json|intros d].
      apply post_free_first_choice_text.
    - apply post_free_bind; [apply post_free_print|done]. }
  - cbn in *. by rewrite Hposts.
  - cbn in Hposts.
    match goal with
    | |- context [run_out w out ?pr ?k] =>
        pose proof (post_free_posts w out pr k) as Hk;
        destruct (run_out w out pr k) as [t1 res]
    end.
    cbn in *. rewrite posts_app, Hposts. rewrite Hk; [done|].
    destruct r; [done|apply post_free_fallback].
Qed.

End OnStdout.

(** ** Sample runs *)

Example empty_choices_fall_back :
  run w_no_choice (get_ai_response "How do I pay off debt?")
  = ([ EGetenv "GROQ_API_KEY" (Some "gsk_0123456789abcdef");
       EPrint (KeyLoaded "gsk_012345");
       EPost (chat_request (Some "gsk_0123456789abcdef")
                           "How do I pay off debt?")
             (remote_outcome w_no_choice "How do I pay off debt?");
       EPrint (ResponseStatus 200);
       EPrint (ExceptionLine IndexError) ],
     inr DEBT_TIP).
Proof. reflexivity. Qed.

Example null_content_falls_back :
  respond w_null_content "Should I INVEST now?" = inr INVEST_TIP
  ∧ In (EPrint (ExceptionLine AttributeError))
       (respond_trace w_null_content "Should I INVEST now?").
Proof. split; [reflexivity|]. vm_compute. tauto. Qed.

Example html_body_falls_back :
  respond w_html "hello" = inr GENERIC_PROMPT
  ∧ In (EPrint (ExceptionLine JSONDecodeError))
       (respond_trace w_html "hello").
Proof. split; [reflexivity|]. vm_compute. tauto. Qed.

Example refused_body_line_is_caught :
  run_out w_accented_error ascii_stdout []
    (get_ai_response "Tell me about pizza")
  = ([ EGetenv "GROQ_API_KEY" (Some "gsk_0123456789abcdef");
       EPrint (KeyLoaded "gsk_012345");
       EPost (chat_request (Some "gsk_0123456789abcdef")
                           "Tell me about pizza")
             (remote_outcome w_accented_error "Tell me about pizza");
       EPrint (ResponseStatus 503);
       EPrint (ExceptionLine (OtherException "UnicodeEncodeError")) ],
     inr GENERIC_PROMPT).
Proof. reflexivity. Qed.

Example closed_stdout_gives_500 :
  post_api_chat_on w_timeout closed_stdout {| message := "hello" |}
  = {| http_status := 500; http_body := JStr "Internal Server Error" |}
  ∧ run_out w_timeout closed_stdout [] (get_ai_response "hello")
    = ([EGetenv "GROQ_API_KEY" (Some "gsk_0123456789abcdef")],
       inl (OtherException "ValueError")).
Proof. split; reflexivity. Qed.

Example pizza_gets_generic_prompt :
  respond w_timeout "Tell me about pizza" = inr GENERIC_PROMPT.
Proof. reflexivity. Qed.

(** * The claims *)




(** C2: when the remote call has failed, the answer is chosen by testing
    the message, case ignored, for "budget", then "invest", then "debt":
    the first keyword found decides, and the generic prompt is the answer
    when none is found. *)
Theorem fallback_precedence (w : World) (msg : string)
    (Hfail : remote_failed (remote_outcome w msg)) :
  (contains_ci "budget" msg → respond w msg = inr BUDGET_TIP)
  ∧ (¬ contains_ci "budget" msg → contains_ci "invest" msg →
     respond w msg = inr INVEST_TIP)
  ∧ (¬ contains_ci "budget" msg → ¬ contains_ci "invest" msg →
     contains_ci "debt" msg → respond w msg = inr DEBT_TIP)
  ∧ (¬ contains_ci "budget" msg → ¬ contains_ci "invest" msg →
     ¬ contains_ci "debt" msg → respond w msg = inr GENERIC_PROMPT).
Proof.
  rewrite (respond_failed w msg Hfail). repeat split; intros; f_equal.
  - by apply fallback_text_budget.
  - by apply fallback_text_invest.
  - by apply fallback_text_debt.
  - by apply fallback_text_generic.
Qed.

Lemma fallback_precedence_witness :
  remote_failed (remote_outcome w_timeout "Invest to clear DEBT on a Budget")
  ∧ respond w_timeout "Invest to clear DEBT on a Budget" = inr BUDGET_TIP.
Proof.
  assert (remote_failed
            (remote_outcome w_timeout "Invest to clear DEBT on a Budget"))
    as Hfail by (vm_compute; constructor).
  split; [exact Hfail|].
  apply (fallback_precedence w_timeout _ Hfail).
  apply contains_lower_ci. reflexivity.
Defined.












(** C7: every run of [get_ai_response] sends exactly one request, hence at
    most one and never a second try; it goes to the fixed completion URL
    and carries the fixed system instruction followed by the user's
    message, [max_tokens] 300 and a timeout of 10. *)
Theorem one_outbound_call (w : World) (msg : string) :
  ∃ r : Request,
    posts (respond_trace w msg) = [r]
    ∧ (length (posts (respond_trace w msg)) ≤ 1)%nat
    ∧ url r = "https://api.groq.com/openai/v1/chat/completions"
    ∧ timeout r = 10
    ∧ ∃ payload : gmap string json,
        json_payload r = JDict payload
        ∧ payload !! "max_tokens" = Some (JInt 300)
        ∧ payload !! "messages"
          = Some (JList
                    [ JDict {[ "role" := JStr "system";
                               "content" :=
                                 JStr "You are a financial advisor. Give brief, practical advice." ]};
                      JDict {[ "role" := JStr "user";
                               "content" := JStr msg ]} ]).
Proof.
  destruct (run_cases w msg) as [Hposts _].
  exists (chat_request (credential w) msg). rewrite Hposts.
  split; [done|]. split; [cbn; lia|]. split; [reflexivity|].
  split; [reflexivity|]. eexists. split; [reflexivity|].
  split; reflexivity.
Qed.

(** C8: [GET /api/health] answers [{status: "healthy"}] with status 200,
    whatever the environment, the remote service and the request are. *)
Theorem health_always_healthy (w : World) (req : HttpRequest) :
  get_api_health w req
  = {| http_status := 200;
       http_body := JDict {[ "status" := JStr "healthy" ]} |}.
Proof. reflexivity. Qed.






(** * Further properties of the handlers *)

(** ** More on strings *)








Lemma take_length (n : nat) (s : string) : (String.length (PyStr.take n s) ≤ n)%nat.
Proof.
  revert s. induction n as [|n IH]; intros [|c s]; simpl; try lia.
  specialize (IH s). lia.
Qed.

Lemma take_prefix (n : nat) (s : string) : ∃ rest, s = PyStr.take n s +:+ rest.
Proof.
  revert s. induction n as [|n IH]; intros [|c s]; simpl;
    try (by eexists).
  destruct (IH s) as [rest Hr]. exists rest. by rewrite app_cons_s, <- Hr.
Qed.


(** ** The whole run along each failure path *)


Section Paths.

Context (w : World) (msg : string).

#[local] Arguments chat_request : simpl never.
#[local] Arguments key_line : simpl never.
#[local] Arguments PyStr.take : simpl never.
#[local] Arguments PyStr.strip : simpl never.

Lemma run_transport (e : exn) :
  remote_outcome w msg = inl e →
  run w (get_ai_response msg)
  = ((run_prefix w msg ++ [EPrint (ExceptionLine e)])%list,
     inr (fallback_text msg)).
Proof.
  unfold run_prefix. intros Ho. rewrite Ho.
  unfold remote_outcome, credential, get_ai_response in *.
  cbn. rewrite Ho. cbn. by rewrite run_fallback.
Qed.

Lemma run_bad_status (resp : Response) :
  remote_outcome w msg = inr resp →
  status_code resp ≠ 200 →
  run w (get_ai_response msg)
  = ((run_prefix w msg
      ++ [ EPrint (ResponseStatus (status_code resp));
           EPrint (ApiError (text resp)) ])%list,
     inr (fallback_text msg)).
Proof.
  unfold run_prefix. intros Ho Hst. rewrite Ho.
  unfold remote_outcome, credential, get_ai_response in *.
  cbn. rewrite Ho. cbn.
  destruct (Z.eqb_spec (status_code resp) 200) as [?|_]; [done|].
  cbn. by rewrite run_fallback.
Qed.

Lemma run_not_json (resp : Response) :
  remote_outcome w msg = inr resp →
  status_code resp = 200 →
  json_value resp = None →
  run w (get_ai_response msg)
  = ((run_prefix w msg
      ++ [ EPrint (ResponseStatus 200);
           EPrint (ExceptionLine JSONDecodeError) ])%list,
     inr (fallback_text msg)).
Proof.
  unfold run_prefix. intros Ho Hst Hj. rewrite Ho.
  unfold remote_outcome, credential, get_ai_response in *.
  cbn. rewrite Ho. cbn. rewrite Hst. cbn.
  unfold response_json. rewrite Hj. cbn. by rewrite run_fallback.
Qed.

Lemma run_raise (resp : Response) (d : json) (e : exn) :
  remote_outcome w msg = inr resp →
  status_code resp = 200 →
  json_value resp = Some d →
  first_choice_text d = Raise e →
  run w (get_ai_response msg)
  = ((run_prefix w msg
      ++ [ EPrint (ResponseStatus 200); EPrint (ExceptionLine e) ])%list,
     inr (fallback_text msg)).
Proof.
  unfold run_prefix. intros Ho Hst Hj He. rewrite Ho.
  unfold remote_outcome, credential, get_ai_response in *.
  cbn. rewrite Ho. cbn. rewrite Hst. cbn.
  unfold response_json. rewrite Hj. cbn. rewrite He. cbn.
  by rewrite run_fallback.
Qed.

(** The four shapes a trace can have after the request. *)
Lemma trace_cases :
  ∃ tail, respond_trace w msg = (run_prefix w msg ++ tail)%list
    ∧ ((∃ e, tail = [EPrint (ExceptionLine e)])
       ∨ (∃ code body,
            tail = [EPrint (ResponseStatus code); EPrint (ApiError body)])
       ∨ (∃ e, tail = [EPrint (ResponseStatus 200);
                       EPrint (ExceptionLine e)])
       ∨ tail = [EPrint (ResponseStatus 200)]).
Proof.
  unfold respond_trace.
  destruct (remote_outcome w msg) as [e|resp] eqn:Ho.
  { rewrite (run_transport e Ho). eauto 10. }
  destruct (decide (status_code resp = 200)) as [Hst|Hst];
    [|rewrite (run_bad_status resp Ho Hst); eauto 10].
  destruct (json_value resp) as [d|] eqn:Hj;
    [|rewrite (run_not_json resp Ho Hst Hj); eauto 10].
  destruct (first_choice_text_cases d) as [(c & Hwf & _)|(_ & e & He)].
  - assert (remote_succeeded (remote_outcome w msg) c) as Hs
      by (rewrite Ho; eauto with outcome).
    rewrite (run_succeeded w msg c Hs).
    exists [EPrint (ResponseStatus 200)]. split; [done|]. by repeat right.
  - rewrite (run_raise resp d e Ho Hst Hj He). eauto 10.
Qed.

End Paths.



(** ** Properties *)




















(** X11: the line printed about the key shows at most its first ten
    characters: a [KeyLoaded] line in the trace carries a prefix of the
    configured key, of length at most 10. *)
Theorem log_shows_key_prefix_only (w : World) (msg p : string)
    (Hin : In (EPrint (KeyLoaded p)) (respond_trace w msg)) :
  ∃ k rest,
    credential w = Some k
    ∧ k = p +:+ rest
    ∧ p = PyStr.take 10 k
    ∧ (String.length p ≤ 10)%nat.
Proof.
  destruct (trace_cases w msg) as (tail & Ht & Htail). rewrite Ht in Hin.
  apply in_app_or in Hin as [Hin|Hin].
  - unfold run_prefix in Hin. simpl in Hin.
    destruct Hin as [[=]|[[= Hk]|[[=]|[]]]].
    unfold key_line in Hk. destruct (credential w) as [k|]; [|done].
    destruct (PyStr.truthy k); [|done]. injection Hk as <-.
    destruct (take_prefix 10 k) as [rest Hrest].
    exists k, rest. split; [done|]. split; [exact Hrest|].
    split; [reflexivity|]. exact (take_length 10 k).
  - destruct Htail as [(e & ->)|[(code & body & ->)|[(e & ->)| ->]]];
      simpl in Hin; intuition discriminate.
Qed.

Lemma log_shows_key_prefix_only_witness :
  ∃ k rest,
    credential w_timeout = Some k ∧ k = "gsk_012345" +:+ rest
    ∧ "gsk_012345" = PyStr.take 10 k
    ∧ (String.length "gsk_012345" ≤ 10)%nat.
Proof.
  apply (log_shows_key_prefix_only w_timeout "hello" "gsk_012345").
  vm_compute. tauto.
Defined.








(** X17: [POST /api/chat] sends exactly one request once the line about
    the key is written, whatever the standard output does with the later
    lines; when the [print] of that line raises, the exception leaves
    [chat_endpoint] before any request is made and the answer is a 500. *)
Theorem chat_request_sent_iff_key_line_written (w : World) (out : Console)
    (m : ChatMessage) :
  (out [] (key_line (credential w)) = None →
   posts (fst (run_out w out [] (chat_endpoint m)))
   = [chat_request (credential w) (message m)])
  ∧ (∀ e, out [] (key_line (credential w)) = Some e →
          run_out w out [] (chat_endpoint m)
          = ([EGetenv "GROQ_API_KEY" (credential w)], inl e)
          ∧ post_api_chat_on w out m
            = {| http_status := 500;
                 http_body := JStr "Internal Server Error" |}).
Proof.
  split.
  - intros Hkey.
    pose proof (get_ai_response_posts w out (message m) Hkey) as Hposts.
    unfold chat_endpoint. rewrite run_out_bind.
    destruct (run_out w out [] (get_ai_response (message m)))
      as [t [e|a]]; cbn in *; [done|].
    by rewrite app_nil_r.
  - intros e Hkey.
    pose proof (get_ai_response_key_line_refused w out (message m) e Hkey)
      as Hrun.
    assert (run_out w out [] (chat_endpoint m)
            = ([EGetenv "GROQ_API_KEY" (credential w)], inl e)) as Hend
      by (unfold chat_endpoint; by rewrite run_out_bind, Hrun).
    split; [done|]. unfold post_api_chat_on, serve_on. by rewrite Hend.
Qed.

Lemma chat_request_sent_iff_key_line_written_witness :
  posts (fst (run_out w_accented_key ascii_stdout []
                (chat_endpoint {| message := "hello" |})))
  = []
  ∧ post_api_chat_on w_accented_key ascii_stdout {| message := "hello" |}
    = {| http_status := 500; http_body := JStr "Internal Server Error" |}.
Proof.
  destruct (proj2 (chat_request_sent_iff_key_line_written
                     w_accented_key ascii_stdout {| message := "hello" |})
                  (OtherException "UnicodeEncodeError") eq_refl)
    as [Hrun Hstatus].
  split; [by rewrite Hrun | exact Hstatus].
Defined.
